(** * PyScaffold file operations and support utilities

    A shallow embedding of [src/pyscaffold/operations.py] (the file
    operations [create], [no_overwrite], [skip_on_update] and
    [add_permissions]) together with the helpers of [pyscaffold.utils]
    they call, and the properties stated about them.

    A file operation is a Python function with the signature
    [(path, contents, opts) -> Path | None] that has side effects on the
    disk and on the logger.  It is embedded as a state-passing function
    over a [world] holding the disk and the list of reports the logger
    received. *)

From Stdlib Require Import ZArith Lia Bool List Ascii String DecimalString.
From stdpp Require Import base option gmap strings list fin_maps.

Local Open Scope string_scope.
Local Open Scope list_scope.
Local Open Scope Z_scope.

(** ** Python values stored in the options dict *)

Module Py.

(** [ScaffoldOpts = Dict[str, Any]]: the values the flags are read
    through [opts.get(key)] and tested for truthiness. *)
Inductive value :=
| PyNone
| PyBool (b : bool)
| PyInt (z : Z)
| PyStr (s : string).

(** Python's truth value testing ([bool(v)]). *)
Definition truthy (v : value) : bool :=
  match v with
  | PyNone => false
  | PyBool b => b
  | PyInt z => negb (z =? 0)
  | PyStr s => negb (String.eqb s "")
  end.

(** [d.get(key)]: the value, or [None] when the key is missing. *)
Definition get (d : gmap string value) (key : string) : value :=
  default PyNone (d !! key).

Definition True_ := PyBool true.
Definition False_ := PyBool false.

End Py.

(** ** The disk and the logger *)

Abbreviation Path := string (only parsing).
Abbreviation FileContents := (option string) (only parsing).
Abbreviation ScaffoldOpts := (gmap string Py.value) (only parsing).

(** A regular file: its text and the mode [path.stat().st_mode] reports. *)
Record file := File { text : string; st_mode : Z }.

(** The world a file operation runs in: the files on disk (a flat name
    space of regular files), the process umask that decides the mode of a
    newly created file, and the reports sent to [logger.report], oldest
    first. *)
Record world := World {
  disk : gmap string file;
  umask : Z;
  reports : list (string * string)
}.

(** [path.exists()] *)
Definition exists_ (path : Path) (w : world) : bool :=
  bool_decide (is_Some (disk w !! path)).

(** [logger.report(activity, subject)] *)
Definition report (activity : string) (subject : Path) (w : world) : world :=
  World (disk w) (umask w) (reports w ++ [(activity, subject)]).

(** The activities reported, without their subjects. *)
Definition tags (w : world) : list string := (reports w).*1.

(** ** Octal notation for modes

    [oct 644] is Python's [0o644]: the decimal digits of the argument are
    read in base eight. *)

Fixpoint oct_aux (fuel : nat) (d : Z) : Z :=
  match fuel with
  | O => 0
  | S fuel' => if d =? 0 then 0 else d mod 10 + 8 * oct_aux fuel' (d / 10)
  end.

Definition oct (d : Z) : Z := oct_aux (S (Z.to_nat (Z.log2 d))) d.

(** Rendering of a mode in base eight, as in the report ["chmod 666"]. *)

Definition octal_digit (n : N) : ascii :=
  ascii_of_N (48 + n).

Fixpoint octal_digits (fuel : nat) (n : N) (acc : string) : string :=
  match fuel with
  | O => acc
  | S fuel' =>
      let acc' := String (octal_digit (n mod 8)) acc in
      if (n / 8 =? 0)%N then acc' else octal_digits fuel' (n / 8)%N acc'
  end.

Definition lpad0 (width : nat) (s : string) : string :=
  string_of_list_ascii (repeat "0"%char (width - String.length s)) +:+ s.

(** [f"{mode:03o}"] *)
Definition octal (mode : Z) : string :=
  let n := Z.to_N mode in
  lpad0 3 (octal_digits (S (N.to_nat (N.log2 n))) n "").

(** ** [pyscaffold.utils]: the leaf I/O helpers *)

Module utils.

(** The mode a new file gets from [open(path, "w")]: [0o666 & ~umask]. *)
Definition new_file_mode (w : world) : Z := Z.ldiff (oct 666) (umask w).

(** Modelled from the spec: [utils.create_file(path, content, pretend)]
    is not part of the sources at hand.  The spec (section 4.1 and 6)
    has it write [content] to [path] unless [pretend], report "create"
    either way and return the path; [tests/test_utils.py]
    ([test_create_file], [test_pretend_create_file]) pins the same.
    Writing over an existing file keeps its mode, a new file gets the
    mode the umask leaves ([test_chmod] touches a file under
    [temp_umask(0o333)] and reads [0o444]).  The disk of this model is a
    flat map from paths to regular files: directories, and with them the
    creation of missing parent directories (section 4.1), are not
    represented, and neither is a write that fails. *)
Definition create_file (path : Path) (content : string) (pretend : Py.value)
    (w : world) : option Path * world :=
  let w1 :=
    if Py.truthy pretend then w
    else
      let mode := match disk w !! path with
                  | Some f => st_mode f
                  | None => new_file_mode w
                  end in
      World (<[path := File content mode]> (disk w)) (umask w) (reports w) in
  (Some path, report "create" path w1).

(** Modelled from the spec: [utils.chmod(path, mode, pretend)] is not
    part of the sources at hand.  The spec (section 4.4 and 6) has it
    apply [mode] to the file unless [pretend] and report the intended
    mode either way (["chmod 666"]); [test_chmod] and
    [test_pretend_chmod] pin the same.  Following the convention stated
    in the docstring of [FileOp] ("changed, such as new access
    permissions ... should return the file path") it returns the path.
    On a path that is not on disk nothing is changed here; the
    operations below call it on existing paths only. *)
Definition chmod (path : Path) (mode : Z) (pretend : Py.value)
    (w : world) : option Path * world :=
  let w1 :=
    if Py.truthy pretend then w
    else World (alter (fun f => File (text f) mode) path (disk w))
               (umask w) (reports w) in
  (Some path, report ("chmod " +:+ octal mode) path w1).

End utils.

(** ** [pyscaffold.utils]: text helpers *)

Module text.

Definition code (c : ascii) : N := N_of_ascii c.

Definition between (lo hi : N) (c : ascii) : bool :=
  ((lo <=? code c) && (code c <=? hi))%N.

Definition is_upper := between 65 90.
Definition is_lower := between 97 122.
Definition is_digit := between 48 57.

(** [str.isspace] on ASCII: space, tab, line feed, vertical tab, form
    feed, carriage return. *)
Definition is_space (c : ascii) : bool :=
  (code c =? 32)%N || between 9 13 c.

(** A character of [[A-Za-z0-9_]]. *)
Definition is_ident_char (c : ascii) : bool :=
  is_upper c || is_lower c || is_digit c || (code c =? 95)%N.

(** A character of [[A-Za-z_]]. *)
Definition is_ident_start (c : ascii) : bool :=
  is_upper c || is_lower c || (code c =? 95)%N.

Definition lower_char (c : ascii) : ascii :=
  if is_upper c then ascii_of_N (code c + 32) else c.

Fixpoint drop_while (p : ascii -> bool) (l : list ascii) : list ascii :=
  match l with
  | [] => []
  | c :: l' => if p c then drop_while p l' else l
  end.

Fixpoint take_while (p : ascii -> bool) (l : list ascii) : list ascii :=
  match l with
  | [] => []
  | c :: l' => if p c then c :: take_while p l' else []
  end.

(** [str.lower] *)
Definition lower (s : string) : string :=
  string_of_list_ascii (map lower_char (list_ascii_of_string s)).

Definition strip_chars (l : list ascii) : list ascii :=
  rev (drop_while is_space (rev (drop_while is_space l))).

(** [str.strip] *)
Definition strip (s : string) : string :=
  string_of_list_ascii (strip_chars (list_ascii_of_string s)).

(** Cut a text at every character satisfying [sep]; [cur] holds the
    piece being read, last character first. *)
Fixpoint split_on (sep : ascii -> bool) (cur : list ascii) (l : list ascii)
    : list (list ascii) :=
  match l with
  | [] => [rev cur]
  | c :: l' =>
      if sep c then rev cur :: split_on sep [] l'
      else split_on sep (c :: cur) l'
  end.

(** [str(n)] for a natural number. *)
Definition decimal (n : N) : string :=
  NilEmpty.string_of_uint (N.to_uint n).

End text.

(** ** [pyscaffold.utils]: identifiers *)

Inductive exn := InvalidIdentifier.

Inductive outcome (A : Type) :=
| Returns (a : A)
| Raises (e : exn).
Arguments Returns {A} a.
Arguments Raises {A} e.

Module identifiers.
Import text.

(** Modelled from the spec: the reserved-word set of section 4.6
    ("language keywords") is not part of the sources at hand; it is
    taken to be Python's [keyword.kwlist]. *)
Definition reserved : list string :=
  [ "False"; "None"; "True"; "and"; "as"; "assert"; "async"; "await";
    "break"; "class"; "continue"; "def"; "del"; "elif"; "else"; "except";
    "finally"; "for"; "from"; "global"; "if"; "import"; "in"; "is";
    "lambda"; "nonlocal"; "not"; "or"; "pass"; "raise"; "return"; "try";
    "while"; "with"; "yield" ].

Definition is_reserved (s : string) : bool :=
  existsb (String.eqb s) reserved.

(** Modelled from the spec: [utils.is_valid_identifier] is not part of
    the sources at hand.  Section 4.6: true iff the text matches
    [^[A-Za-z_][A-Za-z0-9_]*$] and is not a reserved word. *)
Definition is_valid_identifier (s : string) : bool :=
  match list_ascii_of_string s with
  | [] => false
  | c :: l => is_ident_start c && forallb is_ident_char l
  end && negb (is_reserved s).

(** Replace every run of characters outside [[A-Za-z0-9_]] by one
    underscore; [in_run] tells whether the previous character already
    belonged to such a run. *)
Fixpoint squeeze (in_run : bool) (l : list ascii) : list ascii :=
  match l with
  | [] => []
  | c :: l' =>
      if is_ident_char c then c :: squeeze false l'
      else if in_run then squeeze true l'
      else "_"%char :: squeeze true l'
  end.

(** The clean-up as section 4.6 words it: lower-case, strip surrounding
    whitespace, one underscore per run of non-identifier characters,
    no leading digits. *)
Definition cleanup_spec (s : string) : string :=
  string_of_list_ascii
    (drop_while is_digit
       (squeeze false (list_ascii_of_string (strip (lower s))))).

(** Modelled from the spec: [utils.make_valid_identifier] is not part of
    the sources at hand.  This definition follows the words of section
    4.6 to the letter. *)
Definition make_valid_identifier_spec (s : string) : outcome string :=
  let r := cleanup_spec s in
  if is_valid_identifier r then Returns r else Raises InvalidIdentifier.

(** Whitespace and hyphens separate words. *)
Definition is_separator (c : ascii) : bool :=
  is_space c || (code c =? 45)%N.

(** One underscore per run of separators; any other character outside
    [[A-Za-z0-9_]] is dropped. *)
Fixpoint sanitize (in_run : bool) (l : list ascii) : list ascii :=
  match l with
  | [] => []
  | c :: l' =>
      if is_ident_char c then c :: sanitize false l'
      else if is_separator c then
        if in_run then sanitize true l' else "_"%char :: sanitize true l'
      else sanitize in_run l'
  end.

Definition cleanup (s : string) : string :=
  string_of_list_ascii
    (drop_while is_digit
       (sanitize false (list_ascii_of_string (strip (lower s))))).

(** One clean-up that meets every assertion of
    [test_make_valid_identifier]: the steps of section 4.6, with the
    characters that are neither identifier characters nor separators
    dropped.  The sources at hand do not tell whether the library works
    this way (how it treats runs of separators, leading digits or a
    character such as [%] inside a word is not shown by the test); the
    definition only serves to show that the assertions of the test can be
    met together. *)
Definition make_valid_identifier_candidate (s : string) : outcome string :=
  let r := cleanup s in
  if is_valid_identifier r then Returns r else Raises InvalidIdentifier.

Definition outcome_eqb (a b : outcome string) : bool :=
  match a, b with
  | Returns x, Returns y => String.eqb x y
  | Raises InvalidIdentifier, Raises InvalidIdentifier => true
  | _, _ => false
  end.

(** [tests/test_utils.py::test_make_valid_identifier], with the function
    under test as a parameter: [true] when every assertion passes. *)
Definition test_make_valid_identifier (f : string -> outcome string) : bool :=
  outcome_eqb (f "has whitespaces ") (Returns "has_whitespaces")
  && outcome_eqb (f "has-hyphon") (Returns "has_hyphon")
  && outcome_eqb (f "special chars%") (Returns "special_chars")
  && outcome_eqb (f "UpperCase") (Returns "uppercase")
  && outcome_eqb (f "def") (Raises InvalidIdentifier).

(** [tests/test_utils.py::test_is_valid_identifier] *)
Definition test_is_valid_identifier (f : string -> bool) : bool :=
  forallb (fun bad_name => negb (f bad_name))
    [ "has whitespace"; "has-hyphen"; "has_special_char$";
      "1starts_with_digit" ]
  && forallb f [ "normal_variable_name"; "_private_var"; "_with_number1" ].

End identifiers.

(** ** [pyscaffold.utils]: requirement strings *)

Module requirements.
Import text.

(** A parsed version, as [pkg_resources.parse_version] gives for the
    release segment ["1.2.5"]. *)
Record version := Version { major : N; minor : N; patch : N }.

Definition show (v : version) : string :=
  decimal (major v) +:+ "." +:+ decimal (minor v) +:+ "." +:+ decimal (patch v).

(** The next major release: the leading component incremented, the rest
    zeroed, printed as in the tests (["<2.0"] for [1.2.5]). *)
Definition next_major (v : version) : string :=
  decimal (major v + 1) +:+ ".0".

(** Modelled from the spec: the constraint generated for an owned
    package (section 4.5, step 2), in the form the tests and section 8
    print it: ["name>=V,<nextMajor(V)"]. *)
Definition semantic_dependency (name : string) (v : version) : string :=
  name +:+ ">=" +:+ show v +:+ ",<" +:+ next_major v.

Definition newline : ascii := "010"%char.

Definition is_item_boundary (c : ascii) : bool :=
  (code c =? 59)%N || (code c =? 10)%N.

(** Modelled from the spec: [utils.split_deps] is not part of the
    sources at hand.  Section 4.5, step 1: items are separated by line
    breaks or by [;]; [test_split_deps] shows the pieces stripped and
    the empty ones left out. *)
Definition split_deps (deps : string) : list string :=
  filter (fun d => d ≠ "")
    (map (fun piece => string_of_list_ascii (strip_chars piece))
         (split_on is_item_boundary [] (list_ascii_of_string deps))).

(** A character of a package name: letter, digit, [_], [-] or [.]. *)
Definition is_name_char (c : ascii) : bool :=
  is_ident_char c || (code c =? 45)%N || (code c =? 46)%N.

(** The package a requirement string names, lower-cased: what precedes
    the version operator. *)
Definition dep_name (requirement : string) : string :=
  lower (string_of_list_ascii
           (take_while is_name_char (list_ascii_of_string (strip requirement)))).

(** Modelled from the spec: [utils.is_dep_included] is not part of the
    sources at hand.  Section 4.5: true iff the requirement's package
    name matches a key of [owned], case-insensitively (section 3). *)
Definition is_dep_included {V} (requirement : string) (owned : list (string * V))
    : bool :=
  existsb (fun kv => String.eqb (lower kv.1) (dep_name requirement)) owned.

(** Modelled from the spec: [utils.remove_deps] is not part of the
    sources at hand.  Section 4.5: the requirements whose package name
    matches none of the keys to remove, in their order. *)
Definition remove_deps {V} (reqs : list string) (to_remove : list (string * V))
    : list string :=
  filter (fun r => is_dep_included r to_remove = false) reqs.

(** Modelled from the spec: the reconciler of section 4.5 (the list
    behind [utils.get_requirements_str]) is not part of the sources at
    hand.  [owned] is a dict in its iteration order.  The two loops are
    steps 2 and 3; the result list is appended to as they go. *)
Definition reconcile (declared : list string) (owned : list (string * version))
    : list string :=
  let items := flat_map split_deps declared in
  let generated :=
    fold_left (fun acc kv => acc ++ [semantic_dependency kv.1 kv.2])
      owned [] in
  fold_left
    (fun acc raw =>
       if is_dep_included raw owned then acc else acc ++ [raw])
    items generated.

(** Every item on a line of its own, indented by four spaces. *)
Definition lines (l : list string) : string :=
  fold_right (fun d acc => String newline "    " +:+ d +:+ acc) "" l.

(** Modelled from the spec: [utils.get_requirements_str] is not part of
    the sources at hand; [test_get_requirements_str] shows every
    requirement of the reconciled list on a line of its own, indented by
    four spaces. *)
Definition get_requirements_str (extra_deps : list string)
    (own_deps : list (string * version)) : string :=
  lines (reconcile extra_deps own_deps).

(** [tests/test_utils.py::test_get_requirements_str], with the function
    under test as a parameter. *)
Definition test_get_requirements_str
    (f : list string -> list (string * version) -> string) : bool :=
  let own_deps :=
    [ ("setuptools_scm", Version 1 2 5);
      ("pyscaffold", Version 42 1 0);
      ("django", Version 5 3 99999) ] in
  String.eqb
    (f ["appdirs==1"; "cookiecutter<8"; "mypkg~=9.0"] own_deps)
    (lines [ "setuptools_scm>=1.2.5,<2.0"; "pyscaffold>=42.1.0,<43.0";
             "django>=5.3.99999,<6.0"; "appdirs==1"; "cookiecutter<8";
             "mypkg~=9.0" ])
  && String.eqb
    (f ["appdirs==1"; "pyscaffold<8"; "mypkg~=9.0"] own_deps)
    (lines [ "setuptools_scm>=1.2.5,<2.0"; "pyscaffold>=42.1.0,<43.0";
             "django>=5.3.99999,<6.0"; "appdirs==1"; "mypkg~=9.0" ]).

(** [tests/test_utils.py::test_split_deps] *)
Definition test_split_deps (f : string -> list string) : bool :=
  let nl := String newline "" in
  let expected :=
    ["pyscaffold>=42.1.0,<43.0"; "appdirs==1"; "cookiecutter<8"; "mypkg~=9.0"] in
  bool_decide
    (f (nl +:+ "    pyscaffold>=42.1.0,<43.0" +:+ nl +:+ "    appdirs==1"
        +:+ nl +:+ "    cookiecutter<8" +:+ nl +:+ "    mypkg~=9.0") = expected)
  && bool_decide
    (f (nl +:+ "    pyscaffold>=42.1.0,<43.0;appdirs==1"
        +:+ nl +:+ "    cookiecutter<8;mypkg~=9.0" +:+ nl +:+ nl) = expected)
  && bool_decide
    (f "pyscaffold>=42.1.0,<43.0; appdirs==1; cookiecutter<8; mypkg~=9.0; "
     = expected).

(** [tests/test_utils.py::test_is_dep_included] *)
Definition test_is_dep_included
    (f : string -> list (string * string) -> bool) : bool :=
  let deps :=
    [("setuptools_scm", "some.version"); ("pyscaffold", "42.0"); ("django", "0")] in
  f "setuptools_scm>=34" deps
  && f "pyscaffold>=5.34.5,<=42" deps
  && f "django" deps
  && negb (f "appdirs==1" deps)
  && negb (f "cookiecutter<8" deps)
  && negb (f "mypkg~=9.0" deps).

(** [tests/test_utils.py::test_remove_deps]; the keys of the second
    argument are what matters. *)
Definition test_remove_deps
    (f : list string -> list (string * unit) -> list string) : bool :=
  let reqs :=
    ["pyscaffold>=42.1.0,<43.0"; "appdirs==1"; "cookiecutter<8"; "mypkg~=9.0"] in
  bool_decide (f reqs [("appdirs", tt)]
               = ["pyscaffold>=42.1.0,<43.0"; "cookiecutter<8"; "mypkg~=9.0"])
  && bool_decide (f reqs [("mypkg", tt)]
                  = ["pyscaffold>=42.1.0,<43.0"; "appdirs==1"; "cookiecutter<8"]).

End requirements.

(** ** [pyscaffold.operations] *)

(** [FileOp = Callable[[Path, FileContents, ScaffoldOpts], Union[Path, None]]],
    with its side effects made explicit. *)
Definition FileOp : Type :=
  Path -> FileContents -> ScaffoldOpts -> world -> option Path * world.

(** [create(path, contents, opts)] *)
Definition create : FileOp := fun path contents opts w =>
  match contents with
  | None => (None, w)
  | Some c => utils.create_file path c (Py.get opts "pretend") w
  end.

(** [no_overwrite(file_op)] *)
Definition no_overwrite (file_op : FileOp) : FileOp := fun path contents opts w =>
  if Py.truthy (Py.get opts "force") || negb (exists_ path w)
  then file_op path contents opts w
  else (None, report "skip" path w).

(** [skip_on_update(file_op)] *)
Definition skip_on_update (file_op : FileOp) : FileOp := fun path contents opts w =>
  if Py.truthy (Py.get opts "force") || negb (Py.truthy (Py.get opts "update"))
  then file_op path contents opts w
  else (None, report "skip" path w).

(** [add_permissions(permissions, file_op)] *)
Definition add_permissions (permissions : Z) (file_op : FileOp) : FileOp :=
  fun path contents opts w =>
    let '(return_value, w1) := file_op path contents opts w in
    match disk w1 !! path with
    | Some f =>
        let mode := Z.lor (st_mode f) permissions in
        utils.chmod path mode (Py.get opts "pretend") w1
    | None => (return_value, w1)
    end.

(** The operations that can be built from this module: [create] under any
    nesting of the three wrappers. *)
Inductive op :=
| Create
| NoOverwrite (inner : op)
| SkipOnUpdate (inner : op)
| AddPermissions (permissions : Z) (inner : op).

Fixpoint run (o : op) : FileOp :=
  match o with
  | Create => create
  | NoOverwrite i => no_overwrite (run i)
  | SkipOnUpdate i => skip_on_update (run i)
  | AddPermissions p i => add_permissions p (run i)
  end.

(** Whether a permission step occurs anywhere in the nesting. *)
Fixpoint has_permissions (o : op) : bool :=
  match o with
  | Create => false
  | NoOverwrite i | SkipOnUpdate i => has_permissions i
  | AddPermissions _ _ => true
  end.

Definition opts_of (force update pretend : bool) : gmap string Py.value :=
  <["force" := Py.PyBool force]>
    (<["update" := Py.PyBool update]>
       (<["pretend" := Py.PyBool pretend]> ∅)).


(** ** Options with the missing flags written out *)

Definition flags : list string := ["force"; "update"; "pretend"].

(** [opts.setdefault(key, False)] on a copy. *)
Definition with_default (key : string) (opts : gmap string Py.value)
    : gmap string Py.value :=
  match opts !! key with
  | Some _ => opts
  | None => <[key := Py.False_]> opts
  end.

(** The same options with every flag that is missing set to [False]. *)
Definition explicit_flags (opts : gmap string Py.value) : gmap string Py.value :=
  foldr with_default opts flags.

(** The permission bits [run o] adds to a file that is already on disk,
    in a run that does not pretend: the bits of the permission steps that
    are reached. *)
Fixpoint added (o : op) (opts : gmap string Py.value) : Z :=
  match o with
  | Create => 0
  | NoOverwrite i =>
      if Py.truthy (Py.get opts "force") then added i opts else 0
  | SkipOnUpdate i =>
      if Py.truthy (Py.get opts "force") || negb (Py.truthy (Py.get opts "update"))
      then added i opts else 0
  | AddPermissions p i => Z.lor (added i opts) p
  end.

(** The options of a pretend run ([b] true) or of a real run ([b] false). *)
Definition pretending (b : bool) (opts : gmap string Py.value)
    : gmap string Py.value :=
  <["pretend" := Py.PyBool b]> opts.

(** [a] has every bit of [b]. *)
Definition superset (a b : Z) : Prop := Z.land a b = b.

(** Whether a nesting of policy wrappers hands over to [create], given
    the options and whether the path is on disk: every wrapper on the way
    must let the call through. *)
Fixpoint delegates (o : op) (opts : gmap string Py.value) (on_disk : bool) : bool :=
  match o with
  | Create => true
  | NoOverwrite i =>
      (Py.truthy (Py.get opts "force") || negb on_disk) && delegates i opts on_disk
  | SkipOnUpdate i =>
      (Py.truthy (Py.get opts "force") || negb (Py.truthy (Py.get opts "update")))
      && delegates i opts on_disk
  | AddPermissions _ i => delegates i opts on_disk
  end.

(** Two options dicts in which the three flags have the same truth
    values. *)
Definition same_flags (opts opts' : gmap string Py.value) : Prop :=
  forall k, k ∈ flags -> Py.truthy (Py.get opts k) = Py.truthy (Py.get opts' k).

(** The permission bits of the permission steps a call reaches, given
    the options and whether the path is on disk when the call starts. *)
Fixpoint reached_bits (o : op) (opts : gmap string Py.value) (on_disk : bool) : Z :=
  match o with
  | Create => 0
  | NoOverwrite i =>
      if Py.truthy (Py.get opts "force") || negb on_disk
      then reached_bits i opts on_disk else 0
  | SkipOnUpdate i =>
      if Py.truthy (Py.get opts "force") || negb (Py.truthy (Py.get opts "update"))
      then reached_bits i opts on_disk else 0
  | AddPermissions p i => Z.lor (reached_bits i opts on_disk) p
  end.

(** The disk after [content] was written to [path]: an existing file
    keeps its mode, a new one gets the mode the umask leaves. *)
Definition write_file (path : string) (content : string) (um : Z)
    (d : gmap string file) : gmap string file :=
  <[path := File content (match d !! path with
                          | Some f => st_mode f
                          | None => Z.ldiff (oct 666) um
                          end)]> d.

(** The disk after the bits [A] were added to the mode of [path], if it
    is there. *)
Definition or_mode (path : string) (A : Z) (d : gmap string file)
    : gmap string file :=
  alter (fun f => File (text f) (Z.lor (st_mode f) A)) path d.

(** A file operation that tells a missing flag from a false one, as in
    [def op(path, contents, opts): return path if "force" in opts else None]:
    it touches nothing and returns the path only when the key is in the
    dict. *)
Definition needs_force_key : FileOp := fun path contents opts w =>
  if bool_decide (is_Some (opts !! "force")) then (Some path, w) else (None, w).

(** A disk with one file, and a world around it. *)
Definition disk0 : gmap string file := {["setup.py" := File "old" (oct 644)]}.
Definition w0 : world := World disk0 (oct 022) [].

(** Equations between bitwise expressions, bit by bit. *)
Ltac bitwise :=
  apply Z.bits_inj'; intros ? _;
  rewrite ?Z.land_spec, ?Z.lor_spec, ?Z.land_spec, ?Z.lor_spec;
  repeat match goal with
         | |- context [Z.testbit ?x ?n] => destruct (Z.testbit x n)
         end;
  reflexivity.

(** * Properties *)

(** ** Basic facts about the world *)

Lemma exists_Some path w f : disk w !! path = Some f -> exists_ path w = true.
Proof. intros H. unfold exists_. apply bool_decide_eq_true. by exists f. Qed.

Lemma exists_None path w : disk w !! path = None -> exists_ path w = false.
Proof.
  intros H. unfold exists_. apply bool_decide_eq_false.
  rewrite H. by intros [? ?].
Qed.

Lemma exists_true path w : exists_ path w = true -> is_Some (disk w !! path).
Proof. unfold exists_. apply bool_decide_eq_true. Qed.

Lemma exists_false path w : exists_ path w = false -> disk w !! path = None.
Proof.
  unfold exists_. intros H%bool_decide_eq_false.
  by apply eq_None_not_Some.
Qed.

Lemma disk_report a s w : disk (report a s w) = disk w.
Proof. reflexivity. Qed.

Lemma reports_report a s w : reports (report a s w) = reports w ++ [(a, s)].
Proof. reflexivity. Qed.

Lemma alter_present (m : gmap string file) path f g :
  m !! path = Some f -> alter g path m = <[path := g f]> m.
Proof.
  intros H. apply map_eq. intros k.
  destruct (decide (path = k)) as [->|Hne].
  - by rewrite lookup_alter_eq, lookup_insert_eq, H.
  - by rewrite lookup_alter_ne, lookup_insert_ne.
Qed.

(** ** [create] *)

(** C4: with absent contents [create] returns the absent marker [None]
    and leaves the whole world (the disk, and the logger as well) as it
    was, whatever the path and the options dict. *)
Theorem create_absent (path : string) (opts : gmap string Py.value) (w : world) :
  create path None opts w = (None, w).
Proof. reflexivity. Qed.

(** ** [no_overwrite] *)

(** C5: [no_overwrite f] hands over to [f] and returns what [f] returns
    when [force] is true or the path is not on disk; when the path is on
    disk and [force] is not true it returns [None], leaves the disk (so
    the prior content of the file) untouched and sends one "skip" report
    for the path. *)
Theorem no_overwrite_contract (f : FileOp) (path : string)
    (contents : option string) (opts : gmap string Py.value) (w : world) :
  (Py.truthy (Py.get opts "force") = true \/ exists_ path w = false ->
   no_overwrite f path contents opts w = f path contents opts w)
  /\
  (Py.truthy (Py.get opts "force") = false -> exists_ path w = true ->
   let r := no_overwrite f path contents opts w in
   r.1 = None
   /\ disk r.2 = disk w
   /\ umask r.2 = umask w
   /\ reports r.2 = reports w ++ [("skip", path)]).
Proof.
  unfold no_overwrite. split.
  - intros [-> | ->]; [reflexivity | by rewrite orb_true_r].
  - intros -> ->. simpl. auto.
Qed.

(** ** [skip_on_update] *)

(** C6: [skip_on_update f] hands over to [f] when [force] is true or
    [update] is not (so always for [update] false, whatever [force] and
    whether or not the path is on disk); when [update] is true and [force]
    is not, it returns [None], leaves the disk untouched (path on disk or
    not) and sends one "skip" report for the path. *)
Theorem skip_on_update_contract (f : FileOp) (path : string)
    (contents : option string) (opts : gmap string Py.value) (w : world) :
  (Py.truthy (Py.get opts "force") = true
   \/ Py.truthy (Py.get opts "update") = false ->
   skip_on_update f path contents opts w = f path contents opts w)
  /\
  (Py.truthy (Py.get opts "update") = true ->
   Py.truthy (Py.get opts "force") = false ->
   let r := skip_on_update f path contents opts w in
   r.1 = None
   /\ disk r.2 = disk w
   /\ umask r.2 = umask w
   /\ reports r.2 = reports w ++ [("skip", path)]).
Proof.
  unfold skip_on_update. split.
  - intros [-> | ->]; [reflexivity | by rewrite orb_true_r].
  - intros -> ->. simpl. auto.
Qed.

(** ** [add_permissions] *)

(** What the permission step does to the disk and the logger, when the
    inner operation left the file [f1] at [path]. *)
Lemma add_permissions_present P (f : FileOp) path contents opts w r w1 f1 :
  f path contents opts w = (r, w1) ->
  disk w1 !! path = Some f1 ->
  add_permissions P f path contents opts w
  = utils.chmod path (Z.lor (st_mode f1) P) (Py.get opts "pretend") w1.
Proof. intros Hf H1. unfold add_permissions. by rewrite Hf, H1. Qed.

Lemma add_permissions_missing P (f : FileOp) path contents opts w r w1 :
  f path contents opts w = (r, w1) ->
  disk w1 !! path = None ->
  add_permissions P f path contents opts w = (r, w1).
Proof. intros Hf H1. unfold add_permissions. by rewrite Hf, H1. Qed.

Lemma chmod_real path mode pretend w f1 :
  Py.truthy pretend = false ->
  disk w !! path = Some f1 ->
  utils.chmod path mode pretend w
  = (Some path,
     World (<[path := File (text f1) mode]> (disk w)) (umask w)
           (reports w ++ [("chmod " +:+ octal mode, path)])).
Proof.
  intros Hp H1. unfold utils.chmod, report. rewrite Hp. simpl.
  by rewrite (alter_present _ _ f1).
Qed.

(** C2, as stated, fails: on a file that is on disk, with absent
    contents, [create] returns [None] while [add_permissions] around it
    returns the path. *)
Lemma add_permissions_return_differs :
  (add_permissions (oct 111) create "setup.py" None (opts_of false false false) w0).1
  <> (create "setup.py" None (opts_of false false false) w0).1.
Proof. vm_compute. discriminate. Qed.

(** C2, amended: [add_permissions P f] returns what [f] returned only
    when the path is not on disk after [f] ran; when it is on disk, the
    result is that of the permission step, the path, whatever [f]
    returned. *)
Theorem add_permissions_return P (f : FileOp) (path : string)
    (contents : option string) (opts : gmap string Py.value) (w : world) :
  let inner := f path contents opts w in
  (add_permissions P f path contents opts w).1
  = if exists_ path inner.2 then Some path else inner.1.
Proof.
  simpl. destruct (f path contents opts w) as [r w1] eqn:Hf. simpl.
  destruct (disk w1 !! path) as [f1|] eqn:H1.
  - rewrite (add_permissions_present _ _ _ _ _ _ _ _ _ Hf H1).
    by rewrite (exists_Some _ _ _ H1).
  - rewrite (add_permissions_missing _ _ _ _ _ _ _ _ Hf H1).
    by rewrite (exists_None _ _ H1).
Qed.

(** C1, as stated, fails: updating over an existing file with mode 644,
    the composed operation returns the path, changes the mode to 755 and
    sends a "chmod 755" report after the "skip" report. *)
Lemma end_to_end_changes_mode :
  let r := add_permissions (oct 111) (skip_on_update create)
             "setup.py" (Some "new") (opts_of false true false) w0 in
  r.1 = Some "setup.py"
  /\ disk r.2 !! "setup.py" = Some (File "old" (oct 755))
  /\ reports r.2 = [("skip", "setup.py"); ("chmod 755", "setup.py")]
  /\ ~ (r.1 = None /\ disk r.2 = disk w0 /\ reports r.2 = [("skip", "setup.py")]).
Proof.
  vm_compute. repeat split; try reflexivity.
  intros (H & _). discriminate H.
Qed.

(** C1, amended: in an update run without [force] and without [pretend],
    on a path that is on disk, [add_permissions P (skip_on_update create)]
    writes no content, sends one "skip" report followed by one "chmod"
    report, sets the mode of the file to its old mode or-ed with [P], and
    returns the path. *)
Theorem end_to_end_update_existing P (path : string) (contents : option string)
    (opts : gmap string Py.value) (w : world) (f0 : file) :
  Py.truthy (Py.get opts "force") = false ->
  Py.truthy (Py.get opts "update") = true ->
  Py.truthy (Py.get opts "pretend") = false ->
  disk w !! path = Some f0 ->
  let mode := Z.lor (st_mode f0) P in
  add_permissions P (skip_on_update create) path contents opts w
  = (Some path,
     World (<[path := File (text f0) mode]> (disk w)) (umask w)
           (reports w ++ [("skip", path); ("chmod " +:+ octal mode, path)])).
Proof.
  intros Hforce Hupdate Hpretend H0. simpl.
  assert (Hskip : skip_on_update create path contents opts w
                  = (None, report "skip" path w)).
  { unfold skip_on_update. by rewrite Hforce, Hupdate. }
  rewrite (add_permissions_present _ _ _ _ _ _ _ _ f0 Hskip) by done.
  rewrite (chmod_real _ _ _ _ f0) by done.
  simpl. by rewrite <- app_assoc.
Qed.

Lemma end_to_end_update_existing_witness :
  add_permissions (oct 111) (skip_on_update create)
    "setup.py" (Some "new") (opts_of false true false) w0
  = (Some "setup.py",
     World (<["setup.py" := File "old" (Z.lor (oct 644) (oct 111))]> disk0) (oct 022)
           [("skip", "setup.py");
            ("chmod " +:+ octal (Z.lor (oct 644) (oct 111)), "setup.py")]).
Proof.
  apply (end_to_end_update_existing (oct 111) "setup.py" (Some "new")
           (opts_of false true false) w0 (File "old" (oct 644)));
    reflexivity.
Defined.

Lemma no_overwrite_contract_witness :
  no_overwrite create "setup.py" (Some "new") (opts_of true false false) w0
  = create "setup.py" (Some "new") (opts_of true false false) w0
  /\ (no_overwrite create "setup.py" (Some "new") (opts_of false false false) w0).1
     = None.
Proof.
  split.
  - apply (no_overwrite_contract create "setup.py" (Some "new")
             (opts_of true false false) w0).
    left. reflexivity.
  - apply (no_overwrite_contract create "setup.py" (Some "new")
             (opts_of false false false) w0); reflexivity.
Defined.

Lemma skip_on_update_contract_witness :
  skip_on_update create "fresh" (Some "new") (opts_of false false false) w0
  = create "fresh" (Some "new") (opts_of false false false) w0
  /\ (skip_on_update create "fresh" (Some "new") (opts_of false true false) w0).1
     = None.
Proof.
  split.
  - apply (skip_on_update_contract create "fresh" (Some "new")
             (opts_of false false false) w0).
    right. reflexivity.
  - apply (skip_on_update_contract create "fresh" (Some "new")
             (opts_of false true false) w0); reflexivity.
Defined.

(** ** Modes *)

Lemma superset_lor_old a b c : superset (Z.lor a (Z.lor b c)) a.
Proof. unfold superset. bitwise. Qed.

Lemma superset_lor_new a b c : superset (Z.lor a (Z.lor b c)) c.
Proof. unfold superset. bitwise. Qed.

Lemma lor_again a b : Z.lor (Z.lor a b) b = Z.lor a b.
Proof. bitwise. Qed.

(** On a path that is on disk, a run that does not pretend leaves a file
    there whose mode is the old one with the bits [added] counts. *)
Lemma run_on_existing (o : op) path contents opts :
  Py.truthy (Py.get opts "pretend") = false ->
  forall w f0, disk w !! path = Some f0 ->
  exists t, disk (run o path contents opts w).2 !! path
            = Some (File t (Z.lor (st_mode f0) (added o opts))).
Proof.
  intros Hp. induction o as [|i IH|i IH|p i IH]; intros w f0 H0; simpl.
  - unfold create, utils.create_file. rewrite Hp, Z.lor_0_r.
    destruct contents as [c|]; simpl.
    + exists c. by rewrite lookup_insert_eq, H0.
    + exists (text f0). rewrite H0. by destruct f0.
  - unfold no_overwrite. rewrite (exists_Some _ _ _ H0), orb_false_r.
    destruct (Py.truthy (Py.get opts "force")); [by apply IH|].
    simpl. exists (text f0). rewrite H0, Z.lor_0_r. by destruct f0.
  - unfold skip_on_update.
    destruct (Py.truthy (Py.get opts "force")
              || negb (Py.truthy (Py.get opts "update"))); [by apply IH|].
    simpl. exists (text f0). rewrite H0, Z.lor_0_r. by destruct f0.
  - destruct (IH w f0 H0) as [t Ht].
    destruct (run i path contents opts w) as [r w1] eqn:Hrun. simpl in Ht.
    rewrite (add_permissions_present _ _ _ _ _ _ _ _ _ Hrun Ht).
    rewrite (chmod_real _ _ _ _ _ Hp Ht). simpl.
    exists t. by rewrite lookup_insert_eq, Z.lor_assoc.
Qed.

Lemma added_without_permissions o opts :
  has_permissions o = false -> added o opts = 0.
Proof.
  induction o as [|i IH|i IH|p i IH]; simpl; intros H; try done.
  - destruct (Py.truthy _); auto.
  - destruct (_ || _); auto.
Qed.

(** C7, as stated, fails: when the inner operation adds bits of its own,
    the resulting mode is not the pre-existing mode or-ed with [P]. *)
Lemma nested_permissions_mode :
  let r := add_permissions (oct 100) (add_permissions (oct 010) create)
             "setup.py" None (opts_of false false false) w0 in
  st_mode <$> disk r.2 !! "setup.py" = Some (oct 754)
  /\ Z.lor (oct 644) (oct 100) = oct 744
  /\ st_mode <$> disk r.2 !! "setup.py"
     <> Some (Z.lor (oct 644) (oct 100)).
Proof. vm_compute. repeat split; discriminate. Qed.

(** C7, amended: in a run that does not pretend, after
    [add_permissions P f] the mode of a file that is on disk once [f]
    returned is the mode [f] left or-ed with [P].  For every [f] built
    from the operations of this module and a path on disk beforehand, the
    resulting mode has every bit of the pre-existing mode and of [P], it
    is exactly their bitwise or when [f] has no permission step of its
    own, and running the same operation a second time leaves the mode as
    it is. *)
Theorem add_permissions_mode P (path : string) (contents : option string)
    (opts : gmap string Py.value) :
  Py.truthy (Py.get opts "pretend") = false ->
  (forall (f : FileOp) w f1,
      disk (f path contents opts w).2 !! path = Some f1 ->
      disk (add_permissions P f path contents opts w).2 !! path
      = Some (File (text f1) (Z.lor (st_mode f1) P)))
  /\
  (forall (o : op) w f0,
      disk w !! path = Some f0 ->
      let w1 := (run (AddPermissions P o) path contents opts w).2 in
      let w2 := (run (AddPermissions P o) path contents opts w1).2 in
      exists f1 f2,
        disk w1 !! path = Some f1
        /\ disk w2 !! path = Some f2
        /\ superset (st_mode f1) (st_mode f0)
        /\ superset (st_mode f1) P
        /\ (has_permissions o = false -> st_mode f1 = Z.lor (st_mode f0) P)
        /\ st_mode f2 = st_mode f1).
Proof.
  intros Hp. split.
  - intros f w f1 H1.
    destruct (f path contents opts w) as [r w1] eqn:Hf. simpl in H1.
    rewrite (add_permissions_present _ _ _ _ _ _ _ _ _ Hf H1).
    rewrite (chmod_real _ _ _ _ _ Hp H1). simpl.
    by rewrite lookup_insert_eq.
  - intros o w f0 H0 w1 w2.
    destruct (run_on_existing (AddPermissions P o) path contents opts Hp w f0 H0)
      as [t1 H1].
    fold w1 in H1.
    destruct (run_on_existing (AddPermissions P o) path contents opts Hp w1 _ H1)
      as [t2 H2].
    fold w2 in H2. simpl in H1, H2.
    eexists _, _. split; [exact H1|]. split; [exact H2|]. simpl.
    split; [apply superset_lor_old|].
    split; [apply superset_lor_new|].
    split.
    + intros Hno. by rewrite (added_without_permissions _ _ Hno), Z.lor_0_l.
    + apply lor_again.
Qed.

Lemma add_permissions_mode_witness :
  disk (add_permissions (oct 111) create "setup.py" (Some "new")
          (opts_of false false false) w0).2 !! "setup.py"
  = Some (File "new" (Z.lor (oct 644) (oct 111)))
  /\
  (let w1 := (run (AddPermissions (oct 111) (NoOverwrite Create)) "setup.py"
                (Some "new") (opts_of false false false) w0).2 in
   let w2 := (run (AddPermissions (oct 111) (NoOverwrite Create)) "setup.py"
                (Some "new") (opts_of false false false) w1).2 in
   exists f1 f2,
     disk w1 !! "setup.py" = Some f1
     /\ disk w2 !! "setup.py" = Some f2
     /\ superset (st_mode f1) (oct 644)
     /\ superset (st_mode f1) (oct 111)
     /\ (has_permissions (NoOverwrite Create) = false
         -> st_mode f1 = Z.lor (oct 644) (oct 111))
     /\ st_mode f2 = st_mode f1).
Proof.
  destruct (add_permissions_mode (oct 111) "setup.py" (Some "new")
              (opts_of false false false) eq_refl) as [Hf Ho].
  split.
  - apply (Hf create w0 (File "new" (oct 644))). reflexivity.
  - apply (Ho (NoOverwrite Create) w0 (File "old" (oct 644))). reflexivity.
Defined.

(** ** Pretend runs *)

Lemma get_pretending b opts : Py.get (pretending b opts) "pretend" = Py.PyBool b.
Proof. unfold Py.get, pretending. by rewrite lookup_insert_eq. Qed.

Lemma get_pretending_other b opts key :
  key <> "pretend" -> Py.get (pretending b opts) key = Py.get opts key.
Proof. intros H. unfold Py.get, pretending. by rewrite lookup_insert_ne. Qed.

(** X10: Whatever the nesting of wrappers, a pretend run leaves the disk as it
    was. *)
Lemma pretend_keeps_disk (o : op) path contents opts :
  Py.truthy (Py.get opts "pretend") = true ->
  forall w, disk (run o path contents opts w).2 = disk w
            /\ umask (run o path contents opts w).2 = umask w.
Proof.
  intros Hp. induction o as [|i IH|i IH|p i IH]; intros w; simpl.
  - unfold create, utils.create_file. rewrite Hp. by destruct contents.
  - unfold no_overwrite. destruct (_ || _); [apply IH | done].
  - unfold skip_on_update. destruct (_ || _); [apply IH | done].
  - unfold add_permissions. specialize (IH w).
    destruct (run i path contents opts w) as [r w1]. simpl in IH.
    destruct (disk w1 !! path); [|done].
    unfold utils.chmod. by rewrite Hp.
Qed.

(** X11: Without a permission step in the nesting, the pretend run and the
    real run return the same value and send the same reports. *)
Lemma pretend_same_reports (o : op) path contents opts :
  has_permissions o = false ->
  forall w,
    (run o path contents (pretending true opts) w).1
    = (run o path contents (pretending false opts) w).1
    /\ reports (run o path contents (pretending true opts) w).2
       = reports (run o path contents (pretending false opts) w).2.
Proof.
  induction o as [|i IH|i IH|p i IH]; intros Hno w; simpl; try done.
  - unfold create, utils.create_file. rewrite !get_pretending.
    by destruct contents.
  - unfold no_overwrite. rewrite !get_pretending_other by done.
    destruct (_ || _); [by apply IH | done].
  - unfold skip_on_update. rewrite !get_pretending_other by done.
    destruct (_ || _); [by apply IH | done].
Qed.

(** C3: the code departs from the claim.  Creating a new file under
    [add_permissions], the real run reports "create" and then "chmod 755";
    the pretend run, whose [create] wrote nothing, finds no file to change
    and reports "create" only.  The disk is left alone by the pretend
    run. *)
Theorem pretend_run_misses_chmod_report :
  let o := AddPermissions (oct 111) Create in
  let real := run o "fresh" (Some "new") (opts_of false false false) w0 in
  let dry := run o "fresh" (Some "new") (opts_of false false true) w0 in
  tags real.2 = ["create"; "chmod 755"]
  /\ tags dry.2 = ["create"]
  /\ disk dry.2 = disk w0
  /\ tags dry.2 <> tags real.2.
Proof. vm_compute. repeat split; try reflexivity. discriminate. Qed.

(** On a file that is on disk, nested permission steps report different
    modes in a pretend run, each step reading the unchanged mode. *)
Example pretend_run_reports_other_modes :
  let o := AddPermissions (oct 004) (AddPermissions (oct 040) Create) in
  let w := World {["setup.py" := File "old" (oct 600)]} (oct 022) [] in
  tags (run o "setup.py" None (opts_of false false false) w).2
  = ["chmod 640"; "chmod 644"]
  /\ tags (run o "setup.py" None (opts_of false false true) w).2
     = ["chmod 640"; "chmod 604"].
Proof. vm_compute. split; reflexivity. Qed.

(** ** Flags missing from the options dict *)

Lemma truthy_get_with_default key opts k :
  Py.truthy (Py.get (with_default key opts) k) = Py.truthy (Py.get opts k).
Proof.
  unfold with_default. destruct (opts !! key) eqn:Hkey; [done|].
  unfold Py.get. destruct (decide (key = k)) as [->|Hne].
  - by rewrite lookup_insert_eq, Hkey.
  - by rewrite lookup_insert_ne.
Qed.

Lemma truthy_get_explicit opts k :
  Py.truthy (Py.get (explicit_flags opts) k) = Py.truthy (Py.get opts k).
Proof. unfold explicit_flags. simpl. by rewrite !truthy_get_with_default. Qed.

Lemma lookup_with_default key opts k :
  with_default key opts !! k
  = if decide (key = k) then Some (default Py.False_ (opts !! k)) else opts !! k.
Proof.
  unfold with_default. destruct (decide (key = k)) as [->|Hne].
  - destruct (opts !! k) eqn:Hk; [by rewrite Hk|by rewrite lookup_insert_eq].
  - destruct (opts !! key); [done|by rewrite lookup_insert_ne].
Qed.

(** Every flag is present in [explicit_flags opts]: with the value it had
    in [opts], or [False] when it was missing. *)
Lemma lookup_explicit_flags opts k :
  k ∈ flags -> explicit_flags opts !! k = Some (default Py.False_ (opts !! k)).
Proof.
  unfold explicit_flags, flags. simpl.
  rewrite !elem_of_cons, elem_of_nil. rewrite !lookup_with_default.
  intros [-> | [-> | [-> | []]]]; repeat (case_decide; simpl; try done).
Qed.

Lemma create_explicit path contents opts w :
  create path contents opts w = create path contents (explicit_flags opts) w.
Proof.
  unfold create, utils.create_file. destruct contents; [|done].
  by rewrite truthy_get_explicit.
Qed.

Lemma no_overwrite_explicit (f : FileOp) path contents opts w :
  f path contents opts w = f path contents (explicit_flags opts) w ->
  no_overwrite f path contents opts w
  = no_overwrite f path contents (explicit_flags opts) w.
Proof. intros Hf. unfold no_overwrite. by rewrite truthy_get_explicit, Hf. Qed.

Lemma skip_on_update_explicit (f : FileOp) path contents opts w :
  f path contents opts w = f path contents (explicit_flags opts) w ->
  skip_on_update f path contents opts w
  = skip_on_update f path contents (explicit_flags opts) w.
Proof.
  intros Hf. unfold skip_on_update. by rewrite !truthy_get_explicit, Hf.
Qed.

Lemma add_permissions_explicit P (f : FileOp) path contents opts w :
  f path contents opts w = f path contents (explicit_flags opts) w ->
  add_permissions P f path contents opts w
  = add_permissions P f path contents (explicit_flags opts) w.
Proof.
  intros Hf. unfold add_permissions. rewrite <- Hf.
  destruct (f path contents opts w) as [r w1].
  destruct (disk w1 !! path); [|done].
  unfold utils.chmod. by rewrite truthy_get_explicit.
Qed.

Lemma run_explicit (o : op) path contents opts w :
  run o path contents opts w = run o path contents (explicit_flags opts) w.
Proof.
  revert w. induction o as [|i IH|i IH|p i IH]; intros w; simpl.
  - apply create_explicit.
  - by apply no_overwrite_explicit.
  - by apply skip_on_update_explicit.
  - by apply add_permissions_explicit.
Qed.

(** C10, as stated, fails: the wrappers hand the options dict on as it
    is, so around an inner operation that tests whether the key [force]
    is in the dict, each of them returns [None] on the empty dict and the
    path on the dict with the flags set to [False]. *)
Lemma key_presence_shows_through :
  (no_overwrite needs_force_key "fresh" (Some "new") ∅ w0).1 = None
  /\ (no_overwrite needs_force_key "fresh" (Some "new") (explicit_flags ∅) w0).1
     = Some "fresh"
  /\ (skip_on_update needs_force_key "fresh" (Some "new") ∅ w0).1 = None
  /\ (skip_on_update needs_force_key "fresh" (Some "new") (explicit_flags ∅) w0).1
     = Some "fresh"
  /\ (add_permissions (oct 111) needs_force_key "fresh" (Some "new") ∅ w0).1 = None
  /\ (add_permissions (oct 111) needs_force_key "fresh" (Some "new")
        (explicit_flags ∅) w0).1 = Some "fresh"
  /\ no_overwrite needs_force_key "fresh" (Some "new") ∅ w0
     <> no_overwrite needs_force_key "fresh" (Some "new") (explicit_flags ∅) w0.
Proof. vm_compute. repeat split; try reflexivity. discriminate. Qed.

(** C10, amended: the operations of this module read a flag missing from
    the options dict as false.  [create], every operation built from
    [create] and the three wrappers, and [no_overwrite f],
    [skip_on_update f] or [add_permissions P f] around an inner operation
    [f] that itself gives the same result on both dicts, give the same
    return value and the same world on the dict with the missing flags
    set to [False]; with an empty dict and a path on disk,
    [no_overwrite f] skips and returns [None] for every [f]. *)
Theorem missing_flags_read_as_false (path : string) (contents : option string)
    (opts : gmap string Py.value) (w : world) :
  let opts' := explicit_flags opts in
  (forall k, k ∈ flags -> opts' !! k = Some (default Py.False_ (opts !! k)))
  /\ create path contents opts w = create path contents opts' w
  /\ (forall (f : FileOp) P,
         f path contents opts w = f path contents opts' w ->
         no_overwrite f path contents opts w = no_overwrite f path contents opts' w
         /\ skip_on_update f path contents opts w
            = skip_on_update f path contents opts' w
         /\ add_permissions P f path contents opts w
            = add_permissions P f path contents opts' w)
  /\ (forall o : op, run o path contents opts w = run o path contents opts' w)
  /\ (forall f : FileOp,
         exists_ path w = true ->
         no_overwrite f path contents ∅ w = (None, report "skip" path w)).
Proof.
  simpl. split; [apply lookup_explicit_flags|].
  split; [apply create_explicit|].
  split.
  { intros f P Hf.
    split; [by apply no_overwrite_explicit|].
    split; [by apply skip_on_update_explicit|by apply add_permissions_explicit]. }
  split; [intros o; apply run_explicit|].
  intros f Hex. unfold no_overwrite. by rewrite Hex.
Qed.

Lemma missing_flags_read_as_false_witness :
  no_overwrite create "setup.py" (Some "new") ∅ w0
  = no_overwrite create "setup.py" (Some "new") (explicit_flags ∅) w0
  /\ no_overwrite create "setup.py" (Some "new") ∅ w0
     = (None, report "skip" "setup.py" w0).
Proof.
  destruct (missing_flags_read_as_false "setup.py" (Some "new") ∅ w0)
    as (_ & _ & Hwrap & _ & Hempty).
  split.
  - apply (Hwrap create 0). reflexivity.
  - apply (Hempty create). reflexivity.
Defined.

(** ** The requirement reconciler *)

Section reconciler.
Import requirements.

Lemma fold_left_generate (owned : list (string * version)) acc :
  fold_left (fun acc kv => acc ++ [semantic_dependency kv.1 kv.2]) owned acc
  = acc ++ map (fun kv => semantic_dependency kv.1 kv.2) owned.
Proof.
  revert acc. induction owned as [|kv owned IH]; intros acc; simpl.
  - by rewrite app_nil_r.
  - by rewrite IH, <- app_assoc.
Qed.

Lemma fold_left_keep {V} (owned : list (string * V)) items acc :
  fold_left
    (fun acc raw => if is_dep_included raw owned then acc else acc ++ [raw])
    items acc
  = acc ++ filter (fun raw => is_dep_included raw owned = false) items.
Proof.
  revert acc. induction items as [|raw items IH]; intros acc; simpl.
  - by rewrite app_nil_r.
  - rewrite IH. destruct (is_dep_included raw owned) eqn:Hinc.
    + by rewrite filter_cons_False by congruence.
    + by rewrite filter_cons_True, <- app_assoc by done.
Qed.

(** C8: the reconciler gives one generated constraint
    ["name>=V,<nextMajor(V)"] per owned package, in the order of
    [owned], followed by the declared items whose package name is not
    (case-insensitively) an owned one, in their original order; with
    owned [{"pkg": 1.2.5}] and declared [["pkg<8", "other~=2"]] the
    result is [["pkg>=1.2.5,<2.0", "other~=2"]]. *)
Theorem reconcile_contract :
  (forall declared owned,
      reconcile declared owned
      = map (fun kv => semantic_dependency kv.1 kv.2) owned
        ++ filter (fun raw => is_dep_included raw owned = false)
             (flat_map split_deps declared))
  /\ (forall owned,
         reconcile [] owned
         = map (fun kv => kv.1 +:+ ">=" +:+ show kv.2 +:+ ",<" +:+ next_major kv.2)
             owned
         /\ length (reconcile [] owned) = length owned)
  /\ reconcile ["pkg<8"; "other~=2"] [("pkg", Version 1 2 5)]
     = ["pkg>=1.2.5,<2.0"; "other~=2"]
  /\ reconcile ["PKG<8"; "other~=2"] [("Pkg", Version 1 2 5)]
     = ["Pkg>=1.2.5,<2.0"; "other~=2"]
  /\ test_get_requirements_str get_requirements_str = true.
Proof.
  assert (Hgen : forall declared owned,
             reconcile declared owned
             = map (fun kv => semantic_dependency kv.1 kv.2) owned
               ++ filter (fun raw => is_dep_included raw owned = false)
                    (flat_map split_deps declared)).
  { intros declared owned. unfold reconcile.
    by rewrite fold_left_keep, fold_left_generate. }
  split; [exact Hgen|].
  split.
  { intros owned. rewrite Hgen. simpl. rewrite app_nil_r.
    split; [reflexivity|]. by rewrite length_map. }
  repeat split; vm_compute; reflexivity.
Qed.

Example split_deps_test : test_split_deps split_deps = true.
Proof. vm_compute. reflexivity. Qed.

Example is_dep_included_test : test_is_dep_included is_dep_included = true.
Proof. vm_compute. reflexivity. Qed.

Example remove_deps_test : test_remove_deps remove_deps = true.
Proof. vm_compute. reflexivity. Qed.

End reconciler.

(** ** Identifiers *)

Section identifier_properties.
Import text identifiers.

Example is_valid_identifier_test :
  test_is_valid_identifier is_valid_identifier = true.
Proof. vm_compute. reflexivity. Qed.

Lemma outcome_eqb_eq (a b : outcome string) : outcome_eqb a b = true -> a = b.
Proof.
  destruct a as [x|[]], b as [y|[]]; simpl; try discriminate; [|done].
  by intros ->%String.eqb_eq.
Qed.




End identifier_properties.

(** * Further properties of the file operations *)

(** ** How the policy wrappers compose *)

(** X1: The two policy wrappers can be nested in either order: around any
    inner operation both nestings return the same value and leave the
    same world. *)
Theorem policy_wrappers_commute (f : FileOp) (path : string)
    (contents : option string) (opts : gmap string Py.value) (w : world) :
  no_overwrite (skip_on_update f) path contents opts w
  = skip_on_update (no_overwrite f) path contents opts w.
Proof.
  unfold no_overwrite, skip_on_update.
  destruct (Py.truthy (Py.get opts "force")),
    (Py.truthy (Py.get opts "update")), (exists_ path w); reflexivity.
Qed.

(** X2: Applying a policy wrapper twice is the same as applying it once: a
    refused call is reported by one "skip" only. *)
Theorem policy_wrappers_idempotent (f : FileOp) (path : string)
    (contents : option string) (opts : gmap string Py.value) (w : world) :
  no_overwrite (no_overwrite f) path contents opts w
  = no_overwrite f path contents opts w
  /\ skip_on_update (skip_on_update f) path contents opts w
     = skip_on_update f path contents opts w.
Proof.
  unfold no_overwrite, skip_on_update.
  destruct (Py.truthy (Py.get opts "force")),
    (Py.truthy (Py.get opts "update")), (exists_ path w); split; reflexivity.
Qed.

(** X3: However many policy wrappers are nested around [create], the call
    either reaches [create] unchanged (when every wrapper lets it
    through) or ends in [None] with a single "skip" report. *)
Theorem policy_nesting_decides_once (o : op) (path : string)
    (contents : option string) (opts : gmap string Py.value) (w : world) :
  has_permissions o = false ->
  run o path contents opts w
  = if delegates o opts (exists_ path w)
    then create path contents opts w
    else (None, report "skip" path w).
Proof.
  induction o as [|i IH|i IH|p i IH]; simpl; intros Hno; try done.
  - unfold no_overwrite.
    destruct (Py.truthy (Py.get opts "force") || negb (exists_ path w));
      simpl; [by apply IH | done].
  - unfold skip_on_update.
    destruct (Py.truthy (Py.get opts "force")
              || negb (Py.truthy (Py.get opts "update")));
      simpl; [by apply IH | done].
Qed.

Lemma policy_nesting_decides_once_witness :
  run (NoOverwrite (SkipOnUpdate (NoOverwrite Create)))
    "setup.py" (Some "new") (opts_of false false false) w0
  = (None, report "skip" "setup.py" w0).
Proof.
  apply (policy_nesting_decides_once (NoOverwrite (SkipOnUpdate (NoOverwrite Create)))
           "setup.py" (Some "new") (opts_of false false false) w0).
  reflexivity.
Defined.

(** ** What a composed operation reads of the options *)

Lemma create_same_flags path contents opts opts' w :
  same_flags opts opts' ->
  create path contents opts w = create path contents opts' w.
Proof.
  intros H. unfold create, utils.create_file. destruct contents; [|done].
  rewrite (H "pretend"); [done|]. unfold flags. set_solver.
Qed.

(** X4: A composed operation depends on the options dict only through the
    truth values of [force], [update] and [pretend]: other keys, and the
    exact values of the flags, make no difference. *)
Theorem run_reads_flags_only (o : op) (path : string) (contents : option string)
    (opts opts' : gmap string Py.value) (w : world) :
  same_flags opts opts' ->
  run o path contents opts w = run o path contents opts' w.
Proof.
  intros H.
  assert (Hforce : Py.truthy (Py.get opts "force")
                   = Py.truthy (Py.get opts' "force")).
  { apply H. unfold flags. set_solver. }
  assert (Hupdate : Py.truthy (Py.get opts "update")
                    = Py.truthy (Py.get opts' "update")).
  { apply H. unfold flags. set_solver. }
  assert (Hpretend : Py.truthy (Py.get opts "pretend")
                     = Py.truthy (Py.get opts' "pretend")).
  { apply H. unfold flags. set_solver. }
  revert w. induction o as [|i IH|i IH|p i IH]; intros w; simpl.
  - by apply create_same_flags.
  - unfold no_overwrite. by rewrite Hforce, IH.
  - unfold skip_on_update. by rewrite Hforce, Hupdate, IH.
  - unfold add_permissions. rewrite IH.
    destruct (run i path contents opts' w) as [r w1].
    destruct (disk w1 !! path); [|done].
    unfold utils.chmod. by rewrite Hpretend.
Qed.

Lemma run_reads_flags_only_witness :
  run (AddPermissions (oct 111) (NoOverwrite Create)) "setup.py" (Some "new")
    (<["force" := Py.PyInt 1]> (<["author" := Py.PyStr "me"]> ∅)) w0
  = run (AddPermissions (oct 111) (NoOverwrite Create)) "setup.py" (Some "new")
      (opts_of true false false) w0.
Proof.
  apply run_reads_flags_only.
  intros k Hk. unfold flags in Hk.
  apply elem_of_cons in Hk as [-> | Hk]; [reflexivity|].
  apply elem_of_cons in Hk as [-> | Hk]; [reflexivity|].
  apply elem_of_cons in Hk as [-> | Hk]; [reflexivity|].
  by apply elem_of_nil in Hk.
Defined.

(** ** What a composed operation does to the world *)

Section world_relations.
Variable path : string.
Variable contents : option string.
Variable opts : gmap string Py.value.

(** A relation between the world before and after that is reflexive,
    transitive and kept by each primitive step (writing the file,
    reporting a skip, changing the mode of the file at [path] to its mode
    or-ed with some bits) holds across every composed operation. *)
Variable R : world -> world -> Prop.
Hypothesis R_refl : forall w, R w w.
Hypothesis R_trans : forall a b c, R a b -> R b c -> R a c.
Hypothesis R_create :
  forall c w, contents = Some c ->
    R w (utils.create_file path c (Py.get opts "pretend") w).2.
Hypothesis R_skip : forall w, R w (report "skip" path w).
Hypothesis R_chmod :
  forall p w f, disk w !! path = Some f ->
    R w (utils.chmod path (Z.lor (st_mode f) p) (Py.get opts "pretend") w).2.

Lemma run_related (o : op) : forall w, R w (run o path contents opts w).2.
Proof.
  induction o as [|i IH|i IH|p i IH]; intros w; simpl.
  - unfold create. destruct contents eqn:Hc; [by apply R_create | apply R_refl].
  - unfold no_overwrite. destruct (_ || _); [apply IH | apply R_skip].
  - unfold skip_on_update. destruct (_ || _); [apply IH | apply R_skip].
  - unfold add_permissions. specialize (IH w).
    destruct (run i path contents opts w) as [r w1]. simpl in IH.
    destruct (disk w1 !! path) as [f|] eqn:H1; [|exact IH].
    eapply R_trans; [exact IH|]. by apply R_chmod.
Qed.

End world_relations.

(** X6: A composed operation never deletes the file and never takes a
    permission bit away: a file on disk beforehand is on disk afterwards,
    with a mode that has every bit of the old one, and with its old text
    when the contents are absent. *)
Theorem run_keeps_file_and_bits (o : op) (path : string)
    (contents : option string) (opts : gmap string Py.value) (w : world)
    (f0 : file) :
  disk w !! path = Some f0 ->
  exists f1,
    disk (run o path contents opts w).2 !! path = Some f1
    /\ superset (st_mode f1) (st_mode f0)
    /\ (contents = None -> text f1 = text f0).
Proof.
  revert f0.
  apply (run_related path contents opts
           (fun a b => forall f0, disk a !! path = Some f0 ->
              exists f1, disk b !! path = Some f1
                         /\ superset (st_mode f1) (st_mode f0)
                         /\ (contents = None -> text f1 = text f0))).
  - intros a f0 H0. exists f0. split; [done|]. split; [apply Z.land_diag|done].
  - intros a b c Hab Hbc f0 H0.
    destruct (Hab f0 H0) as (f1 & H1 & Hs1 & Ht1).
    destruct (Hbc f1 H1) as (f2 & H2 & Hs2 & Ht2).
    exists f2. split; [done|]. split.
    + unfold superset in *. rewrite <- Hs1 at 1.
      rewrite Z.land_assoc, Hs2. exact Hs1.
    + intros Hc. by rewrite Ht2, Ht1.
  - intros c a Hc f0 H0. unfold utils.create_file.
    destruct (Py.truthy _); simpl.
    + exists f0. split; [done|]. split; [apply Z.land_diag|done].
    + rewrite lookup_insert_eq, H0. eexists. split; [done|]. simpl.
      split; [apply Z.land_diag|]. by rewrite Hc.
  - intros a f0 H0. exists f0. split; [done|]. split; [apply Z.land_diag|done].
  - intros p a f Hf f0 H0. rewrite Hf in H0. injection H0 as ->.
    unfold utils.chmod. destruct (Py.truthy _); simpl.
    + exists f0. split; [done|]. split; [apply Z.land_diag|done].
    + rewrite lookup_alter_eq, Hf. simpl. eexists. split; [done|]. simpl.
      split; [|done]. unfold superset. bitwise.
Qed.

Lemma run_keeps_file_and_bits_witness :
  exists f1,
    disk (run (AddPermissions (oct 111) (NoOverwrite Create)) "setup.py" None
            (opts_of true false false) w0).2 !! "setup.py" = Some f1
    /\ superset (st_mode f1) (oct 644)
    /\ ((None : option string) = None -> text f1 = "old").
Proof.
  apply (run_keeps_file_and_bits (AddPermissions (oct 111) (NoOverwrite Create))
           "setup.py" None (opts_of true false false) w0 (File "old" (oct 644))).
  reflexivity.
Defined.

(** X7: The logger is only appended to, and every report a composed
    operation sends is about the path it was called on. *)
Theorem run_appends_reports (o : op) (path : string) (contents : option string)
    (opts : gmap string Py.value) (w : world) :
  exists new,
    reports (run o path contents opts w).2 = reports w ++ new
    /\ Forall (fun r => r.2 = path) new.
Proof.
  apply (run_related path contents opts
           (fun a b => exists new, reports b = reports a ++ new
                                   /\ Forall (fun r => r.2 = path) new)).
  - intros a. exists []. by rewrite app_nil_r.
  - intros a b c (n1 & H1 & F1) (n2 & H2 & F2). exists (n1 ++ n2).
    split; [by rewrite H2, H1, app_assoc | by apply Forall_app].
  - intros c a _. unfold utils.create_file.
    destruct (Py.truthy _); simpl;
      (eexists; split; [reflexivity | by repeat constructor]).
  - intros a. eexists. split; [reflexivity | by repeat constructor].
  - intros p a f _. unfold utils.chmod.
    destruct (Py.truthy _); simpl;
      (eexists; split; [reflexivity | by repeat constructor]).
Qed.

(** X8: A composed operation returns either [None] or the path it was called
    on, and when it returns [None] the disk is exactly as it was. *)
Theorem run_none_means_untouched (o : op) (path : string)
    (contents : option string) (opts : gmap string Py.value) (w : world) :
  let r := run o path contents opts w in
  (r.1 = None \/ r.1 = Some path)
  /\ (r.1 = None -> disk r.2 = disk w /\ umask r.2 = umask w).
Proof.
  revert w. induction o as [|i IH|i IH|p i IH]; intros w; simpl.
  - unfold create, utils.create_file. destruct contents; simpl.
    + split; [by right | discriminate].
    + split; [by left | done].
  - unfold no_overwrite. destruct (_ || _); [apply IH|]. simpl. auto.
  - unfold skip_on_update. destruct (_ || _); [apply IH|]. simpl. auto.
  - unfold add_permissions. specialize (IH w). simpl in IH.
    destruct (run i path contents opts w) as [r w1]. simpl in IH.
    destruct (disk w1 !! path); [|exact IH].
    unfold utils.chmod. simpl. split; [by right | discriminate].
Qed.

Lemma run_none_means_untouched_witness :
  disk (run (AddPermissions (oct 111) (SkipOnUpdate Create)) "fresh" (Some "new")
          (opts_of false true false) w0).2 = disk w0
  /\ umask (run (AddPermissions (oct 111) (SkipOnUpdate Create)) "fresh"
              (Some "new") (opts_of false true false) w0).2 = umask w0.
Proof.
  apply (run_none_means_untouched (AddPermissions (oct 111) (SkipOnUpdate Create))
           "fresh" (Some "new") (opts_of false true false) w0).
  reflexivity.
Defined.

(** ** Nested permission steps *)

Lemma add_permissions_disk P (f : FileOp) path contents opts w :
  let w1 := (f path contents opts w).2 in
  disk (add_permissions P f path contents opts w).2
  = if Py.truthy (Py.get opts "pretend") then disk w1
    else alter (fun x => File (text x) (Z.lor (st_mode x) P)) path (disk w1).
Proof.
  simpl. unfold add_permissions.
  destruct (f path contents opts w) as [r w1]. simpl.
  destruct (disk w1 !! path) as [f1|] eqn:H1.
  - unfold utils.chmod. destruct (Py.truthy _); simpl; [done|].
    rewrite !(alter_present _ _ f1) by done. done.
  - simpl. destruct (Py.truthy _); [done|].
    apply map_eq. intros k. destruct (decide (path = k)) as [<-|Hne].
    + by rewrite lookup_alter_eq, H1.
    + by rewrite lookup_alter_ne.
Qed.

(** X9: Permission steps accumulate: around any inner operation, two nested
    [add_permissions] leave the same disk as a single one with the bits
    of both, so the order of nesting does not matter for the disk. *)
Theorem nested_permissions_accumulate P Q (f : FileOp) (path : string)
    (contents : option string) (opts : gmap string Py.value) (w : world) :
  disk (add_permissions P (add_permissions Q f) path contents opts w).2
  = disk (add_permissions (Z.lor Q P) f path contents opts w).2
  /\ disk (add_permissions P (add_permissions Q f) path contents opts w).2
     = disk (add_permissions Q (add_permissions P f) path contents opts w).2.
Proof.
  assert (Hacc : forall A B,
             disk (add_permissions A (add_permissions B f) path contents opts w).2
             = disk (add_permissions (Z.lor B A) f path contents opts w).2).
  { intros A B. rewrite !add_permissions_disk.
    destruct (Py.truthy (Py.get opts "pretend")); [done|].
    rewrite alter_alter_eq. apply alter_ext. intros x _. simpl.
    by rewrite Z.lor_assoc. }
  split; [apply Hacc|].
  rewrite !Hacc. by rewrite Z.lor_comm.
Qed.

(** ** The disk after a composed operation *)

Lemma lookup_or_mode path A d k :
  or_mode path A d !! k
  = if decide (path = k)
    then (fun f => File (text f) (Z.lor (st_mode f) A)) <$> d !! k
    else d !! k.
Proof.
  unfold or_mode. case_decide as Hk.
  - subst. apply lookup_alter_eq.
  - by apply lookup_alter_ne.
Qed.

Lemma or_mode_0 path d : or_mode path 0 d = d.
Proof.
  apply map_eq. intros k. rewrite lookup_or_mode. case_decide; [|done].
  destruct (d !! k) as [[t m]|]; simpl; [|done]. by rewrite Z.lor_0_r.
Qed.

Lemma or_mode_or_mode path A B d :
  or_mode path B (or_mode path A d) = or_mode path (Z.lor A B) d.
Proof.
  unfold or_mode. rewrite alter_alter_eq. apply alter_ext. intros x _. simpl.
  by rewrite Z.lor_assoc.
Qed.

(** The disk a composed operation leaves, in closed form: nothing changes
    in a pretend run; otherwise the content is written if the call
    reaches [create] with contents, and the bits of the permission steps
    reached are added to the file at [path]. *)
Lemma run_disk (o : op) path contents opts w :
  let on_disk := exists_ path w in
  disk (run o path contents opts w).2
  = (if Py.truthy (Py.get opts "pretend") then disk w
     else or_mode path (reached_bits o opts on_disk)
            match contents with
            | Some c =>
                if delegates o opts on_disk
                then write_file path c (umask w) (disk w) else disk w
            | None => disk w
            end)
  /\ umask (run o path contents opts w).2 = umask w.
Proof.
  simpl. induction o as [|i IH|i IH|p i IH]; simpl.
  - unfold create, utils.create_file. rewrite or_mode_0.
    destruct contents; simpl; [|by destruct (Py.truthy _)].
    by destruct (Py.truthy _).
  - unfold no_overwrite.
    destruct (Py.truthy (Py.get opts "force") || negb (exists_ path w));
      simpl; [exact IH|].
    rewrite or_mode_0. by destruct (Py.truthy _), contents.
  - unfold skip_on_update.
    destruct (Py.truthy (Py.get opts "force")
              || negb (Py.truthy (Py.get opts "update"))); simpl; [exact IH|].
    rewrite or_mode_0. by destruct (Py.truthy _), contents.
  - destruct IH as [IHd IHu]. split.
    + rewrite add_permissions_disk. simpl. rewrite IHd.
      destruct (Py.truthy (Py.get opts "pretend")); [done|].
      by rewrite <- or_mode_or_mode.
    + rewrite <- IHu. unfold add_permissions.
      destruct (run i path contents opts w) as [r w1]. simpl.
      destruct (disk w1 !! path); [|done].
      unfold utils.chmod. by destruct (Py.truthy _).
Qed.

Lemma reached_bits_on_disk o opts on_disk :
  Z.lor (reached_bits o opts on_disk) (reached_bits o opts true)
  = reached_bits o opts on_disk.
Proof.
  induction o as [|i IH|i IH|p i IH]; simpl.
  - done.
  - destruct on_disk; simpl; [apply Z.lor_diag|].
    rewrite orb_true_r, orb_false_r.
    destruct (Py.truthy (Py.get opts "force")); [exact IH | apply Z.lor_0_r].
  - destruct (_ || _); [exact IH | done].
  - rewrite <- IH at 2. bitwise.
Qed.

Lemma exists_lookup path w w' :
  is_Some (disk w' !! path) <-> is_Some (disk w !! path) ->
  exists_ path w' = exists_ path w.
Proof.
  intros H. unfold exists_.
  destruct (bool_decide (is_Some (disk w !! path))) eqn:E.
  - apply bool_decide_eq_true in E. apply bool_decide_eq_true. by apply H.
  - apply bool_decide_eq_false in E. apply bool_decide_eq_false.
    intros H'. by apply E, H.
Qed.

(** X12: Running the same operation a second time, on the same path with the
    same contents and options, leaves the disk as the first run left
    it. *)
Theorem run_twice_same_disk (o : op) (path : string) (contents : option string)
    (opts : gmap string Py.value) (w : world) :
  let w1 := (run o path contents opts w).2 in
  disk (run o path contents opts w1).2 = disk w1.
Proof.
  simpl.
  destruct (run_disk o path contents opts w) as [Hd1 Hu1]. simpl in Hd1.
  destruct (run_disk o path contents opts (run o path contents opts w).2)
    as [Hd2 _]. simpl in Hd2.
  rewrite Hd2. clear Hd2. rewrite Hu1.
  destruct (Py.truthy (Py.get opts "pretend")); [done|].
  set (w1 := (run o path contents opts w).2) in *.
  set (A0 := reached_bits o opts (exists_ path w)) in *.
  assert (Hstay : exists_ path w1 = exists_ path w ->
            or_mode path (reached_bits o opts (exists_ path w1)) (disk w1)
            = disk w1).
  { intros ->. fold A0. rewrite Hd1 at 1. rewrite or_mode_or_mode, Z.lor_diag.
    by rewrite <- Hd1. }
  assert (Hnone : disk w1 = or_mode path A0 (disk w) ->
            exists_ path w1 = exists_ path w).
  { intros Hw1. apply exists_lookup. rewrite Hw1, lookup_or_mode.
    rewrite decide_True by done. apply fmap_is_Some. }
  destruct contents as [c|]; [|rewrite (Hstay (Hnone Hd1)) at 1; done].
  destruct (delegates o opts (exists_ path w)) eqn:Hdel; cycle 1.
  { pose proof (Hnone Hd1) as Hex. rewrite Hex, Hdel. rewrite <- Hex.
    by apply Hstay. }
  assert (H1 : exists m, disk w1 !! path = Some (File c m)).
  { rewrite Hd1, lookup_or_mode, decide_True by done.
    unfold write_file. rewrite lookup_insert_eq. simpl. by eexists. }
  destruct H1 as [m H1].
  rewrite (exists_Some _ _ _ H1).
  assert (Hwrite : write_file path c (umask w) (disk w1) = disk w1).
  { unfold write_file. rewrite H1. simpl. by apply insert_id. }
  assert (Hbits : or_mode path (reached_bits o opts true) (disk w1) = disk w1).
  { rewrite Hd1 at 1. rewrite or_mode_or_mode. fold A0.
    unfold A0 at 1. rewrite reached_bits_on_disk. fold A0. by rewrite <- Hd1. }
  destruct (delegates o opts true); by rewrite ?Hwrite, Hbits.
Qed.

Lemma delegates_force o opts on_disk :
  Py.truthy (Py.get opts "force") = true -> delegates o opts on_disk = true.
Proof.
  intros Hf. induction o as [|i IH|i IH|p i IH]; simpl; try done;
    by rewrite Hf, IH.
Qed.

(** X13: With [force], however the wrappers are nested, present contents are
    always written: the operation returns the path and, unless it
    pretends, the file at the path holds exactly these contents
    afterwards. *)
Theorem force_overwrites (o : op) (path : string) (c : string)
    (opts : gmap string Py.value) (w : world) :
  Py.truthy (Py.get opts "force") = true ->
  (run o path (Some c) opts w).1 = Some path
  /\ (Py.truthy (Py.get opts "pretend") = false ->
      text <$> disk (run o path (Some c) opts w).2 !! path = Some c).
Proof.
  intros Hf. split.
  - induction o as [|i IH|i IH|p i IH]; simpl.
    + done.
    + unfold no_overwrite. by rewrite Hf.
    + unfold skip_on_update. by rewrite Hf.
    + unfold add_permissions.
      destruct (run i path (Some c) opts w) as [r w1]. simpl in IH.
      by destruct (disk w1 !! path).
  - intros Hp. destruct (run_disk o path (Some c) opts w) as [-> _].
    rewrite Hp, (delegates_force _ _ _ Hf), lookup_or_mode.
    rewrite decide_True by done. unfold write_file.
    by rewrite lookup_insert_eq.
Qed.

Lemma force_overwrites_witness :
  (run (NoOverwrite (SkipOnUpdate (AddPermissions (oct 111) Create)))
     "setup.py" (Some "new") (opts_of true true false) w0).1 = Some "setup.py"
  /\ text <$> disk (run (NoOverwrite (SkipOnUpdate (AddPermissions (oct 111) Create)))
                      "setup.py" (Some "new") (opts_of true true false) w0).2
              !! "setup.py" = Some "new".
Proof.
  destruct (force_overwrites (NoOverwrite (SkipOnUpdate (AddPermissions (oct 111) Create)))
              "setup.py" "new" (opts_of true true false) w0 eq_refl) as [Hr Ht].
  split; [exact Hr | apply Ht; reflexivity].
Defined.

Lemma pretend_keeps_disk_witness :
  disk (run (AddPermissions (oct 111) (NoOverwrite Create)) "setup.py"
          (Some "new") (opts_of true false true) w0).2 = disk w0
  /\ umask (run (AddPermissions (oct 111) (NoOverwrite Create)) "setup.py"
              (Some "new") (opts_of true false true) w0).2 = umask w0.
Proof.
  apply (pretend_keeps_disk (AddPermissions (oct 111) (NoOverwrite Create))
           "setup.py" (Some "new") (opts_of true false true)).
  reflexivity.
Defined.

Lemma pretend_same_reports_witness :
  (run (NoOverwrite (SkipOnUpdate Create)) "fresh" (Some "new")
     (pretending true (opts_of false false false)) w0).1
  = (run (NoOverwrite (SkipOnUpdate Create)) "fresh" (Some "new")
       (pretending false (opts_of false false false)) w0).1
  /\ reports (run (NoOverwrite (SkipOnUpdate Create)) "fresh" (Some "new")
                (pretending true (opts_of false false false)) w0).2
     = reports (run (NoOverwrite (SkipOnUpdate Create)) "fresh" (Some "new")
                  (pretending false (opts_of false false false)) w0).2.
Proof.
  apply (pretend_same_reports (NoOverwrite (SkipOnUpdate Create)) "fresh"
           (Some "new") (opts_of false false false)).
  reflexivity.
Defined.
